(** * JobSpy API: a shallow embedding of [main.py]

    The service is a FastAPI application with five routes.  Every search
    route imports the [jobspy] module, calls its [scrape_jobs] function,
    turns the returned pandas DataFrame into a list of dicts, replaces the
    missing-value markers by [None] and returns a JSON object.

    The collaborators that are not part of the repository ([jobspy],
    [pandas], the FastAPI request validation) are modelled by their
    documented behaviour on the values the handlers hand to them. *)

From Stdlib Require Import ZArith SpecFloat Ascii.
From stdpp Require Import gmap strings list fin_maps pretty.

Open Scope Z_scope.

(** ** Python values *)

(** A cell of the scraped table.  The table of job listings holds scalars:
    [None], [bool], [int], [float] (an IEEE 754 double, [S754_nan] being
    [float('nan')]), [str], [datetime.date], and the pandas markers
    [pd.NaT] and [pd.NA]. *)
Inductive value : Type :=
| VNone
| VBool (b : bool)
| VInt (n : Z)
| VFloat (f : spec_float)
| VStr (s : string)
| VDate (year month day : Z)
| VNaT
| VNA.

(** [pd.isna] on a scalar: true for [None], NaN, [pd.NaT] and [pd.NA]. *)
Definition isna (v : value) : bool :=
  match v with
  | VNone | VFloat S754_nan | VNaT | VNA => true
  | _ => false
  end.

(** A row is a Python [dict] from field names to cells. *)
Abbreviation row := (gmap string value).

(** ** pandas DataFrame *)

(** A DataFrame: its column labels and, per index entry, the cells of that
    entry in column order. *)
Record DataFrame : Type := mkDataFrame {
  columns : list string;
  data : list (list value)
}.

(** [len(df)]: the number of index entries. *)
Definition nrows (df : DataFrame) : nat := length (data df).

(** [df.empty]: true when any of the two axes has length 0. *)
Definition empty (df : DataFrame) : bool :=
  bool_decide (columns df = []) || bool_decide (data df = []).

(** [dict(zip(columns, cells))]: later entries overwrite earlier ones. *)
Definition dict_of_items (items : list (string * value)) : row :=
  foldl (λ d kv, <[kv.1 := kv.2]> d) ∅ items.

(** [df.to_dict('records')]: one dict per index entry, in index order. *)
Definition to_dict_records (df : DataFrame) : list row :=
  map (λ cells, dict_of_items (zip (columns df) cells)) (data df).

(** ** The NaN cleaning loop (lines 109-112 and 160-163) *)

(** [for key, value in job.items(): if pd.isna(value): job[key] = None].
    The loop walks the items of [job] and assigns into the same dict; the
    accumulator of the fold is the dict being mutated. *)
Definition clean_job (job : row) : row :=
  map_fold (λ key value (job : row),
              if isna value then <[key := VNone]> job else job) job job.

(** [for job in jobs_list: ...]: every dict of the list is mutated in place;
    the dicts come fresh from [to_dict] and share nothing. *)
Definition clean_nan_values (jobs_list : list row) : list row :=
  map clean_job jobs_list.

(** ** Keyword arguments of [scrape_jobs] *)

(** The argument values the handlers build: [str], [List[str]], [int],
    [bool] and [None] (an [Optional] field left null). *)
Inductive param : Type :=
| PStr (s : string)
| PList (l : list string)
| PInt (n : Z)
| PBool (b : bool)
| PNone.

(** Python truthiness, the test of [if v]. *)
Definition truthy (v : param) : bool :=
  match v with
  | PStr s => negb (bool_decide (s = ""))
  | PList l => negb (bool_decide (l = []))
  | PInt n => negb (bool_decide (n = 0))
  | PBool b => b
  | PNone => false
  end.

Definition of_optional_int (o : option Z) : param :=
  match o with Some n => PInt n | None => PNone end.

Definition of_optional_bool (o : option bool) : param :=
  match o with Some b => PBool b | None => PNone end.

Abbreviation kwargs := (gmap string param).

(** ** Exceptions *)

(** Instances of [Exception]: [HTTPException] of FastAPI, and any other
    class, of which the handlers only read [str(e)]. *)
Inductive exn : Type :=
| Exception (msg : string)
| HTTPException (status_code : Z) (detail : string).

(** [str(e)]; Starlette prints an [HTTPException] as [status: detail]. *)
Definition str (e : exn) : string :=
  match e with
  | Exception msg => msg
  | HTTPException status_code detail => pretty status_code +:+ ": " +:+ detail
  end.

(** ** The [jobspy] collaborator *)

(** What a call of [scrape_jobs] on keyword arguments does: it returns a DataFrame or
    [None], or it raises. *)
Inductive scrape_result : Type :=
| ScrapeReturns (jobs_df : option DataFrame)
| ScrapeRaises (e : exn).

(** What [from jobspy import scrape_jobs] does: it raises, or it binds the
    function. *)
Inductive jobspy_module : Type :=
| ImportRaises (e : exn)
| Importable (scrape_jobs : kwargs → scrape_result).

(** ** Effects of a handler *)

(** What a handler does to the outside, in order. *)
Inductive event : Type :=
| LogInfo (msg : string)
| LogError (msg : string)
| ScrapeJobs (kw : kwargs).

Inductive outcome (A : Type) : Type :=
| Returned (a : A)
| Raised (e : exn).
Arguments Returned {A} a.
Arguments Raised {A} e.

(** A handler body: from the events so far to an outcome and the events
    after it. *)
Definition Eff (A : Type) : Type := list event → outcome A * list event.

#[global] Instance Eff_ret : MRet Eff := λ A a t, (Returned a, t).

#[global] Instance Eff_bind : MBind Eff := λ A B k m t,
  match m t with
  | (Returned a, t') => k a t'
  | (Raised e, t') => (Raised e, t')
  end.

Definition raise {A : Type} (e : exn) : Eff A := λ t, (Raised e, t).

(** [try: body except Exception as e: handler e]. *)
Definition try_except {A : Type} (body : Eff A) (handler : exn → Eff A) : Eff A :=
  λ t, match body t with
       | (Returned a, t') => (Returned a, t')
       | (Raised e, t') => handler e t'
       end.

Definition emit (ev : event) : Eff unit := λ t, (Returned tt, t ++ [ev]).

Definition logger_info (msg : string) : Eff unit := emit (LogInfo msg).
Definition logger_error (msg : string) : Eff unit := emit (LogError msg).

Definition import_scrape_jobs (jobspy : jobspy_module)
  : Eff (kwargs → scrape_result) :=
  match jobspy with
  | ImportRaises e => raise e
  | Importable scrape_jobs => mret scrape_jobs
  end.

Definition call (scrape_jobs : kwargs → scrape_result) (kw : kwargs)
  : Eff (option DataFrame) :=
  λ t, match scrape_jobs kw with
       | ScrapeReturns jobs_df => (Returned jobs_df, t ++ [ScrapeJobs kw])
       | ScrapeRaises e => (Raised e, t ++ [ScrapeJobs kw])
       end.

(** [len(l)] as a Python [int]. *)
Definition len {A : Type} (l : list A) : Z := Z.of_nat (length l).

(** ** Request and response models (lines 34-45) *)

Record JobSearchRequest : Type := mkJobSearchRequest {
  search_term : string;
  location : string;
  site_name : list string;
  results_wanted : option Z;
  is_remote : option bool
}.

(** The body of both search routes: the dict of [search_jobs_simple] has
    the four keys of [JobSearchResponse]. *)
Record JobSearchResponse : Type := mkJobSearchResponse {
  success : bool;
  message : string;
  total_jobs : Z;
  jobs : list row
}.

(** The dict returned by [test_jobspy]. *)
Record TestResponse : Type := mkTestResponse {
  status : string;
  test_message : string;
  jobspy_imported : bool
}.

(** The dict returned by [get_supported_sites]. *)
Record SupportedSites : Type := mkSupportedSites {
  supported_sites : list string;
  note : string
}.

(** ** Handlers *)

(** [test_jobspy] (lines 57-76). *)
Definition test_jobspy (jobspy : jobspy_module) : Eff TestResponse :=
  try_except
    (_ ← import_scrape_jobs jobspy;
     logger_info "JobSpy imported successfully";;
     mret {| status := "success";
             test_message := "JobSpy is working correctly";
             jobspy_imported := true |})
    (λ e,
     logger_error ("JobSpy test failed: " +:+ str e);;
     mret {| status := "error";
             test_message := "JobSpy test failed: " +:+ str e;
             jobspy_imported := false |}).

(** The keyword arguments of the call of lines 92-97. *)
Definition simple_params (search_term location : string) (results_wanted : Z)
  : kwargs :=
  {[ "search_term" := PStr search_term;
     "location" := PStr location;
     "site_name" := PList ["indeed"];
     "results_wanted" := PInt results_wanted ]}.

(** [search_jobs_simple] (lines 78-125). *)
Definition search_jobs_simple (jobspy : jobspy_module)
    (search_term location : string) (results_wanted : Z)
  : Eff JobSearchResponse :=
  try_except
    (logger_info ("Searching for: " +:+ search_term +:+ " in " +:+ location);;
     scrape_jobs ← import_scrape_jobs jobspy;
     jobs_df ← call scrape_jobs
       (simple_params search_term location results_wanted);
     let no_jobs :=
       {| success := true;
          message := "No jobs found for the search criteria";
          total_jobs := 0;
          jobs := [] |} in
     match jobs_df with
     | None => mret no_jobs
     | Some df =>
       if empty df then mret no_jobs
       else
         let jobs_list := clean_nan_values (to_dict_records df) in
         logger_info ("Found " +:+ pretty (len jobs_list) +:+ " jobs");;
         mret {| success := true;
                 message := "Found " +:+ pretty (len jobs_list) +:+ " jobs";
                 total_jobs := len jobs_list;
                 jobs := jobs_list |}
     end)
    (λ e,
     logger_error ("Search failed: " +:+ str e);;
     raise (HTTPException 500 ("Search failed: " +:+ str e))).

(** The dict [search_params] of lines 136-142. *)
Definition search_params (request : JobSearchRequest) : kwargs :=
  {[ "search_term" := PStr (search_term request);
     "location" := PStr (location request);
     "site_name" := PList (site_name request);
     "results_wanted" := of_optional_int (results_wanted request);
     "is_remote" := of_optional_bool (is_remote request) ]}.

(** [{k: v for k, v in search_params.items() if v}] (line 145). *)
Definition remove_empty_values (search_params : kwargs) : kwargs :=
  filter (λ kv, truthy kv.2 = true) search_params.

(** [search_jobs_post] (lines 127-174). *)
Definition search_jobs_post (jobspy : jobspy_module)
    (request : JobSearchRequest) : Eff JobSearchResponse :=
  try_except
    (logger_info ("POST search: " +:+ search_term request
                    +:+ " in " +:+ location request);;
     scrape_jobs ← import_scrape_jobs jobspy;
     let search_params := remove_empty_values (search_params request) in
     jobs_df ← call scrape_jobs search_params;
     let no_jobs :=
       {| success := true;
          message := "No jobs found";
          total_jobs := 0;
          jobs := [] |} in
     match jobs_df with
     | None => mret no_jobs
     | Some df =>
       if empty df then mret no_jobs
       else
         let jobs_list := clean_nan_values (to_dict_records df) in
         mret {| success := true;
                 message := "Found " +:+ pretty (len jobs_list) +:+ " jobs";
                 total_jobs := len jobs_list;
                 jobs := jobs_list |}
     end)
    (λ e,
     logger_error ("POST search failed: " +:+ str e);;
     raise (HTTPException 500 (str e))).

(** [get_supported_sites] (lines 176-182). *)
Definition get_supported_sites : Eff SupportedSites :=
  mret {| supported_sites :=
            ["indeed"; "linkedin"; "glassdoor"; "google"; "ziprecruiter"];
          note := "Indeed is most reliable for testing" |}.

(** ** The FastAPI layer *)

(** What the client gets: the body of a handler that returned, the
    [{"detail": ...}] body of a raised [HTTPException], the 422 of a
    request that failed validation, or the bare 500 of an exception that
    no handler caught. *)
Inductive http_response (A : Type) : Type :=
| Response200 (content : A)
| ErrorResponse (status_code : Z) (detail : string)
| ValidationError422
| InternalServerError.
Arguments Response200 {A} content.
Arguments ErrorResponse {A} status_code detail.
Arguments ValidationError422 {A}.
Arguments InternalServerError {A}.

(** What FastAPI makes of the outcome of a handler.  [Response200 a] is
    the handler's value [a] handed to the serialiser of the framework, which
    runs after the handler and its [try]; a value that JSON cannot hold, an
    infinite float in a cell, fails there and is no part of this
    function. *)
Definition respond {A : Type} (handler : Eff A)
  : list event → http_response A * list event :=
  λ t, match handler t with
       | (Returned a, t') => (Response200 a, t')
       | (Raised (HTTPException status_code detail), t') =>
           (ErrorResponse status_code detail, t')
       | (Raised (Exception _), t') => (InternalServerError, t')
       end.

(** The numeric constraint [ge=..., le=...] of [Query] and [Field]. *)
Definition ge_le (ge le v : Z) : bool :=
  bool_decide (ge ≤ v) && bool_decide (v ≤ le).

(** The query string of [GET /search-jobs-simple]: each parameter given or
    not. *)
Record SimpleQuery : Type := mkSimpleQuery {
  query_search_term : option string;
  query_location : option string;
  query_results_wanted : option Z
}.

(** [GET /search-jobs-simple]: the declarations of lines 80-82 checked, then
    the handler. *)
Definition route_search_jobs_simple (jobspy : jobspy_module) (q : SimpleQuery)
  : list event → http_response JobSearchResponse * list event :=
  match query_search_term q with
  | None => λ t, (ValidationError422, t)
  | Some search_term =>
    let location := default "" (query_location q) in
    let results_wanted := default 5 (query_results_wanted q) in
    if ge_le 1 20 results_wanted
    then respond (search_jobs_simple jobspy search_term location results_wanted)
    else λ t, (ValidationError422, t)
  end.

(** A field of a JSON body: left out, an explicit [null], or a value. *)
Inductive field (A : Type) : Type :=
| Absent
| Null
| Given (a : A).
Arguments Absent {A}.
Arguments Null {A}.
Arguments Given {A} a.

(** The JSON body of [POST /search-jobs]. *)
Record JobSearchBody : Type := mkJobSearchBody {
  body_search_term : field string;
  body_location : field string;
  body_site_name : field (list string);
  body_results_wanted : field Z;
  body_is_remote : field bool
}.

(** A field declared with a plain type: the default when left out, never
    [null]. *)
Definition plain_field {A : Type} (dflt : option A) (f : field A) : option A :=
  match f with
  | Absent => dflt
  | Null => None
  | Given a => Some a
  end.

(** A field declared [Optional[...]]: [null] is accepted as [None], a value
    has to pass [check]. *)
Definition optional_field {A : Type} (dflt : option A) (check : A → bool)
    (f : field A) : option (option A) :=
  match f with
  | Absent => Some dflt
  | Null => Some None
  | Given a => if check a then Some (Some a) else None
  end.

(** Validation of the body against [JobSearchRequest] (lines 34-39). *)
Definition validate_JobSearchRequest (b : JobSearchBody)
  : option JobSearchRequest :=
  search_term ← plain_field None (body_search_term b);
  location ← plain_field (Some "") (body_location b);
  site_name ← plain_field (Some ["indeed"]) (body_site_name b);
  results_wanted ←
    optional_field (Some 10) (ge_le 1 50) (body_results_wanted b);
  is_remote ← optional_field (Some false) (λ _, true) (body_is_remote b);
  Some {| search_term := search_term;
          location := location;
          site_name := site_name;
          results_wanted := results_wanted;
          is_remote := is_remote |}.

(** [POST /search-jobs]: the body validated, then the handler. *)
Definition route_search_jobs_post (jobspy : jobspy_module) (b : JobSearchBody)
  : list event → http_response JobSearchResponse * list event :=
  match validate_JobSearchRequest b with
  | None => λ t, (ValidationError422, t)
  | Some request => respond (search_jobs_post jobspy request)
  end.

(** ** Vocabulary of the statements *)

(** The calls of [scrape_jobs] among the events, in order. *)
Definition scrape_calls (t : list event) : list kwargs :=
  omap (λ ev, match ev with ScrapeJobs kw => Some kw | _ => None end) t.

(** [sub] occurs in [s]. *)
Definition contains (s sub : string) : Prop :=
  ∃ pre post, s = pre +:+ sub +:+ post.

(** The number of rows of what [scrape_jobs] returned, [None] holding
    none. *)
Definition row_count (jobs_df : option DataFrame) : nat :=
  match jobs_df with
  | None => 0%nat
  | Some df => nrows df
  end.

(** The returned table, when there is one, has at least one column. *)
Definition has_columns (jobs_df : option DataFrame) : bool :=
  match jobs_df with
  | None => true
  | Some df => negb (bool_decide (columns df = []))
  end.

(** The test of lines 99 and 149: [jobs_df is None or jobs_df.empty]. *)
Definition none_or_empty (jobs_df : option DataFrame) : bool :=
  match jobs_df with
  | None => true
  | Some df => empty df
  end.

(** [after] is [before] with the missing-value markers turned into [None]:
    as many rows, and every field of every row holds [None] where it held
    a marker and its old value where it did not. *)
Definition nan_normalized (before after : list row) : Prop :=
  length after = length before
  ∧ ∀ (i : nat) (job : row) (key : string) (v : value),
      before !! i = Some job → job !! key = Some v →
      ∃ job' : row,
        after !! i = Some job'
        ∧ (isna v = true → job' !! key = Some VNone)
        ∧ (isna v = false → job' !! key = Some v).

(** What the loop leaves in a field that held [v]. *)
Definition nan_to_none (v : value) : value :=
  if isna v then VNone else v.

(** ** Sample data *)

Definition sample_df : DataFrame :=
  {| columns := ["title"; "min_amount"];
     data := [[VStr "dev"; VFloat S754_nan]; [VStr "ops"; VInt 3]] |}.

Definition no_rows_df : DataFrame :=
  {| columns := ["title"; "min_amount"]; data := [] |}.

Definition zero_column_df : DataFrame :=
  {| columns := []; data := [[]; []] |}.

Definition sample_request : JobSearchRequest :=
  {| search_term := "developer";
     location := "";
     site_name := ["indeed"];
     results_wanted := Some 10;
     is_remote := Some false |}.

(** ** The health route (lines 47-55) *)

(** [c.isspace()] for a character below 256: the ASCII white space, the
    separators 28 to 31, NEL and the no-break space. *)
Definition isspace (c : ascii) : bool :=
  let n := nat_of_ascii c in
  bool_decide (9 ≤ n ≤ 13)%nat || bool_decide (28 ≤ n ≤ 32)%nat
  || bool_decide (n = 133)%nat || bool_decide (n = 160)%nat.

(** [s.split()] read from left to right, [word] being the run of
    characters read since the last white space. *)
Fixpoint split_from (word s : string) : list string :=
  match s with
  | EmptyString => if bool_decide (word = "") then [] else [word]
  | String c s' =>
    if isspace c
    then if bool_decide (word = "") then split_from "" s'
         else word :: split_from "" s'
    else split_from (word +:+ String c "") s'
  end.

(** [s.split()]: the maximal runs without white space, in order. *)
Definition split (s : string) : list string := split_from "" s.

(** [l[0]]. *)
Definition getitem0 {A : Type} (l : list A) : Eff A :=
  match l with
  | [] => raise (Exception "list index out of range")
  | x :: _ => mret x
  end.

(** What [health_check] reads from the process: the text of
    [datetime.utcnow().isoformat()], [sys.version], and what [os.getcwd()]
    does. *)
Record process : Type := mkProcess {
  utcnow_isoformat : string;
  sys_version : string;
  os_getcwd : outcome string
}.

(** The dict returned by [health_check]. *)
Record HealthResponse : Type := mkHealthResponse {
  health_status : string;
  timestamp : string;
  python_version : string;
  working_directory : string
}.

(** [os.getcwd()]. *)
Definition getcwd (proc : process) : Eff string := λ t, (os_getcwd proc, t).

(** [health_check] (lines 47-55); the values of the dict are evaluated in
    the order they are written. *)
Definition health_check (proc : process) : Eff HealthResponse :=
  let timestamp := utcnow_isoformat proc in
  python_version ← getitem0 (split (sys_version proc));
  working_directory ← getcwd proc;
  mret {| health_status := "healthy";
          timestamp := timestamp;
          python_version := python_version;
          working_directory := working_directory |}.

(** ** More vocabulary *)

(** Every character of [s] passes [p]. *)
Fixpoint all_chars (p : ascii → bool) (s : string) : bool :=
  match s with
  | EmptyString => true
  | String c s' => p c && all_chars p s'
  end.

(** [s] is empty or starts with white space. *)
Definition at_word_end (s : string) : bool :=
  match s with
  | EmptyString => true
  | String c _ => isspace c
  end.

(** A cell that the cleaning loop has nothing to do with: [None], or a value
    that is no missing-value marker. *)
Definition cleaned (v : value) : Prop := v = VNone ∨ isna v = false.

(** No cell of the table is a missing-value marker. *)
Definition no_marker (df : DataFrame) : Prop :=
  Forall (Forall (λ v, isna v = false)) (data df).

(** Every index entry of the table has one cell per column. *)
Definition rectangular (df : DataFrame) : Prop :=
  Forall (λ cells, length cells = length (columns df)) (data df).

Definition marker_free_df : DataFrame :=
  {| columns := ["title"; "company"];
     data := [[VStr "dev"; VStr "ACME"]; [VStr "ops"; VInt 3]] |}.

(** [c] is no white space. *)
Definition nonspace (c : ascii) : bool := negb (isspace c).

(** The table [df] is in [jobs], cell by cell: as many rows, every row with
    the column labels as its field names, and every field holding the cell
    of its column, a missing-value marker turned into [None]. *)
Definition table_in_jobs (df : DataFrame) (jobs : list row) : Prop :=
  length jobs = nrows df
  ∧ ∀ (i : nat) (cells : list value),
      data df !! i = Some cells →
      ∃ job : row,
        jobs !! i = Some job
        ∧ dom job = list_to_set (columns df)
        ∧ ∀ (j : nat) (key : string) (v : value),
            columns df !! j = Some key → cells !! j = Some v →
            job !! key = Some (nan_to_none v).

(** A body that gives the search term only, and the request it is
    validated to. *)
Definition default_body : JobSearchBody :=
  {| body_search_term := Given "developer";
     body_location := Absent;
     body_site_name := Absent;
     body_results_wanted := Absent;
     body_is_remote := Absent |}.

Definition default_request : JobSearchRequest :=
  {| search_term := "developer";
     location := "";
     site_name := ["indeed"];
     results_wanted := Some 10;
     is_remote := Some false |}.

(** ** Lemmas on the cleaning loop *)

(** The dict after a run of the loop over the items of [m], started on the
    dict [b]. *)
Lemma clean_loop_lookup (b m : row) (key : string) :
  map_fold (λ key value (job : row),
              if isna value then <[key := VNone]> job else job) b m !! key
  = match m !! key with
    | Some v => if isna v then Some VNone else b !! key
    | None => b !! key
    end.
Proof.
  revert key.
  apply (map_fold_weak_ind (λ (r m : row), ∀ key, r !! key =
           match m !! key with
           | Some v => if isna v then Some VNone else b !! key
           | None => b !! key
           end)); clear m.
  - intros key. by rewrite lookup_empty.
  - intros i x m r Hi IH key.
    destruct (decide (i = key)) as [->|Hne].
    + rewrite lookup_insert_eq. destruct (isna x).
      * by rewrite lookup_insert_eq.
      * by rewrite IH, Hi.
    + rewrite (lookup_insert_ne m) by done. rewrite <- IH.
      destruct (isna x); [by rewrite lookup_insert_ne|done].
Qed.

Lemma clean_job_lookup (job : row) (key : string) :
  clean_job job !! key
  = nan_to_none <$> job !! key.
Proof.
  unfold clean_job. rewrite clean_loop_lookup.
  destruct (job !! key) as [v|] eqn:E; simpl; [|done].
  unfold nan_to_none. by destruct (isna v).
Qed.

Lemma clean_job_fmap (job : row) :
  clean_job job = nan_to_none <$> job.
Proof. apply map_eq. intros key. by rewrite clean_job_lookup, lookup_fmap. Qed.

Lemma clean_job_dom (job : row) : dom (clean_job job) = dom job.
Proof. rewrite clean_job_fmap. apply dom_fmap_L. Qed.

Lemma clean_nan_values_length (jobs_list : list row) :
  length (clean_nan_values jobs_list) = length jobs_list.
Proof. apply length_map. Qed.

Lemma clean_nan_values_lookup (jobs_list : list row) (i : nat) :
  clean_nan_values jobs_list !! i = clean_job <$> jobs_list !! i.
Proof. apply list_lookup_fmap. Qed.

Example clean_job_ex :
  clean_job {[ "title" := VStr "dev"; "min_amount" := VFloat S754_nan ]}
  = {[ "title" := VStr "dev"; "min_amount" := VNone ]}.
Proof. vm_compute. reflexivity. Qed.

(** ** Running the handlers *)

Ltac run_handler :=
  unfold search_jobs_simple, search_jobs_post, test_jobspy,
    get_supported_sites, try_except, logger_info, logger_error, emit,
    import_scrape_jobs, call, raise, mbind, Eff_bind, mret, Eff_ret;
  cbn beta iota.

Lemma empty_false (df : DataFrame) :
  empty df = false → columns df ≠ [] ∧ data df ≠ [].
Proof.
  unfold empty. intros [H1 H2]%orb_false_elim.
  split; by eapply bool_decide_eq_false.
Qed.

Lemma empty_true (df : DataFrame) :
  empty df = true → columns df = [] ∨ nrows df = 0%nat.
Proof.
  unfold empty, nrows. intros [H|H]%orb_prop; apply bool_decide_eq_true in H.
  - by left.
  - right. by rewrite H.
Qed.

Lemma no_rows_empty (df : DataFrame) : nrows df = 0%nat → empty df = true.
Proof.
  unfold nrows, empty. destruct (data df); [|done].
  intros _. apply orb_true_r.
Qed.

Lemma len_records (df : DataFrame) :
  length (clean_nan_values (to_dict_records df)) = nrows df.
Proof.
  unfold clean_nan_values, to_dict_records, nrows. by rewrite !length_map.
Qed.

(** The number of jobs reported for a result of [scrape_jobs]. *)
Lemma reported_rows (df : DataFrame) :
  (if empty df then 0%nat else nrows df)
  = if has_columns (Some df) then row_count (Some df) else 0%nat.
Proof.
  simpl. destruct (empty df) eqn:E.
  - apply empty_true in E as [Hc|Hr].
    + by rewrite Hc.
    + rewrite Hr. by case_bool_decide.
  - apply empty_false in E as [Hc _]. by case_bool_decide.
Qed.

Lemma clean_nan_values_normalized (jobs_list : list row) :
  nan_normalized jobs_list (clean_nan_values jobs_list).
Proof.
  split; [apply clean_nan_values_length|].
  intros i job key v Hi Hkey. exists (clean_job job).
  rewrite clean_nan_values_lookup, Hi, clean_job_lookup, Hkey.
  unfold nan_to_none. simpl.
  repeat split; intros ->; done.
Qed.

Lemma append_empty_r (s : string) : s +:+ "" = s.
Proof.
  induction s as [|a s IH]; [done|].
  change (String a (s +:+ "") = String a s). by rewrite IH.
Qed.

Lemma contains_refl (s : string) : contains s s.
Proof.
  exists "", "". change (s = s +:+ ""). by rewrite append_empty_r.
Qed.

Lemma contains_suffix (pre s : string) : contains (pre +:+ s) s.
Proof. exists pre, "". by rewrite append_empty_r. Qed.

Lemma scrape_calls_app (t1 t2 : list event) :
  scrape_calls (t1 ++ t2) = scrape_calls t1 ++ scrape_calls t2.
Proof. apply omap_app. Qed.

Lemma remove_empty_values_lookup (params : kwargs) (k : string) (v : param) :
  remove_empty_values params !! k = Some v
  ↔ params !! k = Some v ∧ truthy v = true.
Proof. unfold remove_empty_values. by rewrite map_lookup_filter_Some. Qed.

Lemma remove_empty_values_key (params : kwargs) (k : string) :
  remove_empty_values params !! k
  = match params !! k with
    | Some v => if truthy v then Some v else None
    | None => None
    end.
Proof.
  unfold remove_empty_values. rewrite map_lookup_filter.
  destruct (params !! k) as [v|]; simpl; [|done].
  destruct (truthy v); simpl; by rewrite ?option_guard_True, ?option_guard_False.
Qed.

(** The invariant of the response: [total_jobs] is the length of [jobs],
    whatever the import and [scrape_jobs] did. *)
Lemma total_jobs_is_len_jobs
    (jobspy : jobspy_module) (search_term location : string)
    (results_wanted : Z) (request : JobSearchRequest) (t : list event) :
  (∀ r t',
     search_jobs_simple jobspy search_term location results_wanted t
       = (Returned r, t') → total_jobs r = len (jobs r))
  ∧ (∀ r t',
     search_jobs_post jobspy request t = (Returned r, t') →
     total_jobs r = len (jobs r)).
Proof.
  split; intros r t'; run_handler.
  all: destruct jobspy as [e|scrape_jobs]; [done|]; cbn beta iota.
  all: destruct (scrape_jobs _) as [[df|]|e]; cbn beta iota; [| |done].
  all: try destruct (empty df); cbn beta iota.
  all: by intros [= <- _].
Qed.

(** ** The search handlers

    [scrape_jobs] is the function that the import binds, [t] the events
    that came before the request. *)

Section Search.

Context (scrape_jobs : kwargs → scrape_result) (t : list event).

(** C1, as the code has it: when [scrape_jobs] returns a result set of N
    rows, both search handlers answer with [total_jobs] equal to the length
    of [jobs]; that length is N when the result has at least one column (or
    is [None], with N = 0), and 0 when the result is a table without
    columns, which pandas calls [empty] whatever its number of rows. *)
Theorem total_jobs_is_row_count (jobs_df : option DataFrame) :
  (∀ search_term location results_wanted,
     scrape_jobs (simple_params search_term location results_wanted)
       = ScrapeReturns jobs_df →
     ∃ r t',
       search_jobs_simple (Importable scrape_jobs)
         search_term location results_wanted t = (Returned r, t')
       ∧ total_jobs r = len (jobs r)
       ∧ length (jobs r)
         = if has_columns jobs_df then row_count jobs_df else 0%nat)
  ∧ (∀ request,
     scrape_jobs (remove_empty_values (search_params request))
       = ScrapeReturns jobs_df →
     ∃ r t',
       search_jobs_post (Importable scrape_jobs) request t = (Returned r, t')
       ∧ total_jobs r = len (jobs r)
       ∧ length (jobs r)
         = if has_columns jobs_df then row_count jobs_df else 0%nat).
Proof.
  split; intros; run_handler; rewrite H; cbn beta iota.
  all: destruct jobs_df as [df|]; [|by eexists _, _].
  all: rewrite <- reported_rows; destruct (empty df).
  all: eexists _, _; split; [done|]; split; [done|]; simpl.
  all: done || apply len_records.
Qed.

(** C2: when [scrape_jobs] returns no rows ([None], or a table with no
    row), both search handlers return (they do not raise) a response with
    [success] true, [total_jobs] 0 and no [jobs]; the message of the simple
    handler is "No jobs found for the search criteria". *)
Theorem no_rows_is_success (jobs_df : option DataFrame) :
  row_count jobs_df = 0%nat →
  (∀ search_term location results_wanted,
     scrape_jobs (simple_params search_term location results_wanted)
       = ScrapeReturns jobs_df →
     ∃ t',
       search_jobs_simple (Importable scrape_jobs)
         search_term location results_wanted t
       = (Returned {| success := true;
                      message := "No jobs found for the search criteria";
                      total_jobs := 0;
                      jobs := [] |}, t'))
  ∧ (∀ request,
     scrape_jobs (remove_empty_values (search_params request))
       = ScrapeReturns jobs_df →
     ∃ r t',
       search_jobs_post (Importable scrape_jobs) request t = (Returned r, t')
       ∧ success r = true ∧ total_jobs r = 0 ∧ jobs r = []).
Proof.
  intros Hrows.
  assert (Hempty : ∀ df, jobs_df = Some df → empty df = true).
  { intros df ->. by apply no_rows_empty. }
  split; intros; run_handler; rewrite H; cbn beta iota.
  all: destruct jobs_df as [df|]; [rewrite (Hempty df eq_refl)|].
  all: by repeat eexists.
Qed.

(** C3: when [scrape_jobs] returns a table that is not empty, the [jobs]
    of both search handlers are the records of the table in which, for
    every row and every field, a value for which [pd.isna] holds has become
    [None] and every other value is the one of the table. *)
Theorem nan_becomes_none (df : DataFrame) :
  empty df = false →
  (∀ search_term location results_wanted,
     scrape_jobs (simple_params search_term location results_wanted)
       = ScrapeReturns (Some df) →
     ∃ r t',
       search_jobs_simple (Importable scrape_jobs)
         search_term location results_wanted t = (Returned r, t')
       ∧ nan_normalized (to_dict_records df) (jobs r))
  ∧ (∀ request,
     scrape_jobs (remove_empty_values (search_params request))
       = ScrapeReturns (Some df) →
     ∃ r t',
       search_jobs_post (Importable scrape_jobs) request t = (Returned r, t')
       ∧ nan_normalized (to_dict_records df) (jobs r)).
Proof.
  intros Hempty.
  split; intros; run_handler; rewrite H; cbn beta iota; rewrite Hempty.
  all: eexists _, _; split; [done|]; simpl.
  all: apply clean_nan_values_normalized.
Qed.

(** C4, as the code has it: an exception raised by the call of
    [scrape_jobs] never leaves a search route unhandled; the client gets an
    HTTP 500 whose detail contains the text of the exception.  The detail of
    the simple route is that text after "Search failed: " and so is never
    empty; the detail of the advanced route is the text alone. *)
Theorem scrape_exception_is_500 (e : exn) :
  (∀ search_term location results_wanted,
     scrape_jobs (simple_params search_term location results_wanted)
       = ScrapeRaises e →
     ∃ detail t',
       respond (search_jobs_simple (Importable scrape_jobs)
                  search_term location results_wanted) t
         = (ErrorResponse 500 detail, t')
       ∧ detail = "Search failed: " +:+ str e
       ∧ detail ≠ ""
       ∧ contains detail (str e))
  ∧ (∀ request,
     scrape_jobs (remove_empty_values (search_params request))
       = ScrapeRaises e →
     ∃ detail t',
       respond (search_jobs_post (Importable scrape_jobs) request) t
         = (ErrorResponse 500 detail, t')
       ∧ detail = str e
       ∧ contains detail (str e)).
Proof.
  split; intros; unfold respond; run_handler; rewrite H; cbn beta iota.
  - eexists _, _. split; [done|]. split; [done|].
    split; [done|apply contains_suffix].
  - eexists _, _. split; [done|]. split; [done|apply contains_refl].
Qed.

(** C6: the advanced handler calls [scrape_jobs] once, with the five
    parameters of the request filtered on their truth value: the search
    term, the location and the site list are passed unless empty,
    [results_wanted] unless it is [None] or 0, [is_remote] only when it is
    [True]; every parameter that is passed keeps its value, and no other
    argument is passed.  Said with [search_params]: the arguments of the
    call are exactly its entries whose value is truthy. *)
Theorem post_passes_truthy_params (request : JobSearchRequest) :
  ∃ kw : kwargs,
    scrape_calls (search_jobs_post (Importable scrape_jobs) request t).2
      = scrape_calls t ++ [kw]
    ∧ kw !! "search_term"
      = (if bool_decide (search_term request = "") then None
         else Some (PStr (search_term request)))
    ∧ kw !! "location"
      = (if bool_decide (location request = "") then None
         else Some (PStr (location request)))
    ∧ kw !! "site_name"
      = (if bool_decide (site_name request = []) then None
         else Some (PList (site_name request)))
    ∧ kw !! "results_wanted"
      = match results_wanted request with
        | Some n => if bool_decide (n = 0) then None else Some (PInt n)
        | None => None
        end
    ∧ kw !! "is_remote"
      = (if is_remote request is Some true then Some (PBool true) else None)
    ∧ dom kw ⊆ {[ "search_term"; "location"; "site_name"; "results_wanted";
                  "is_remote" ]}
    ∧ ∀ (k : string) (v : param),
        kw !! k = Some v
        ↔ search_params request !! k = Some v ∧ truthy v = true.
Proof.
  exists (remove_empty_values (search_params request)).
  split.
  { run_handler.
    destruct (scrape_jobs _) as [[df|]|e]; cbn beta iota.
    1: destruct (empty df); cbn beta iota.
    all: simpl; by rewrite !scrape_calls_app, ?app_nil_r. }
  rewrite !remove_empty_values_key.
  split; [unfold search_params; simplify_map_eq; simpl; by case_bool_decide|].
  split; [unfold search_params; simplify_map_eq; simpl; by case_bool_decide|].
  split; [unfold search_params; simplify_map_eq; simpl; by case_bool_decide|].
  split.
  { unfold search_params. simplify_map_eq.
    destruct (results_wanted request) as [n|]; simpl; [|done].
    by case_bool_decide. }
  split.
  { unfold search_params. simplify_map_eq.
    by destruct (is_remote request) as [[]|]. }
  split; [|intros k v; apply remove_empty_values_lookup].
  intros k [v Hv]%elem_of_dom.
  apply remove_empty_values_lookup in Hv as [Hv _].
  apply elem_of_dom_2 in Hv. revert Hv. unfold search_params.
  rewrite !dom_insert_L, dom_singleton_L.
  rewrite !elem_of_union, !elem_of_singleton. tauto.
Qed.

(** C7, as the code has it: on the same result of [scrape_jobs] the two
    search handlers return the same [success], [total_jobs] and [jobs];
    the message is the same when there are rows to report, and when the
    result is [None] or empty each handler has its own message. *)
Theorem post_handles_like_simple
    (jobs_df : option DataFrame) (search_term location : string)
    (results_wanted : Z) (request : JobSearchRequest) (t2 : list event) :
  scrape_jobs (simple_params search_term location results_wanted)
    = ScrapeReturns jobs_df →
  scrape_jobs (remove_empty_values (search_params request))
    = ScrapeReturns jobs_df →
  ∃ r1 r2 t1' t2',
    search_jobs_simple (Importable scrape_jobs)
      search_term location results_wanted t = (Returned r1, t1')
    ∧ search_jobs_post (Importable scrape_jobs) request t2
      = (Returned r2, t2')
    ∧ success r1 = success r2
    ∧ total_jobs r1 = total_jobs r2
    ∧ jobs r1 = jobs r2
    ∧ (if none_or_empty jobs_df
       then message r1 = "No jobs found for the search criteria"
            ∧ message r2 = "No jobs found"
       else message r1 = message r2).
Proof.
  intros Hsimple Hpost. run_handler. rewrite Hsimple, Hpost. cbn beta iota.
  destruct jobs_df as [df|]; simpl; [destruct (empty df)|].
  all: by eexists _, _, _, _.
Qed.

End Search.

(** ** The search handlers on sample data *)

Lemma total_jobs_is_row_count_witness :
  let scrape_jobs := λ _ : kwargs, ScrapeReturns (Some sample_df) in
  (∃ r t',
     search_jobs_simple (Importable scrape_jobs) "developer" "Remote" 5 []
       = (Returned r, t')
     ∧ total_jobs r = len (jobs r) ∧ length (jobs r) = 2%nat)
  ∧ (∃ r t',
       search_jobs_post (Importable scrape_jobs) sample_request []
         = (Returned r, t')
       ∧ total_jobs r = len (jobs r) ∧ length (jobs r) = 2%nat).
Proof.
  intros scrape_jobs.
  destruct (total_jobs_is_row_count scrape_jobs [] (Some sample_df))
    as [Hsimple Hpost].
  split.
  - exact (Hsimple "developer" "Remote" 5 eq_refl).
  - exact (Hpost sample_request eq_refl).
Defined.

(** The table of two rows and no column: pandas calls it [empty], and both
    handlers report no job. *)
Lemma total_jobs_zero_columns :
  let scrape_jobs := λ _ : kwargs, ScrapeReturns (Some zero_column_df) in
  row_count (Some zero_column_df) = 2%nat
  ∧ (∃ r t',
       search_jobs_simple (Importable scrape_jobs) "developer" "Remote" 5 []
         = (Returned r, t')
       ∧ total_jobs r = 0 ∧ jobs r = [])
  ∧ (∃ r t',
       search_jobs_post (Importable scrape_jobs) sample_request []
         = (Returned r, t')
       ∧ total_jobs r = 0 ∧ jobs r = []).
Proof.
  intros scrape_jobs. split; [reflexivity|].
  split; run_handler; by eexists _, _.
Qed.

Lemma no_rows_is_success_witness :
  let scrape_jobs := λ _ : kwargs, ScrapeReturns (Some no_rows_df) in
  row_count (Some no_rows_df) = 0%nat
  ∧ (∃ t',
       search_jobs_simple (Importable scrape_jobs) "developer" "Remote" 5 []
       = (Returned {| success := true;
                      message := "No jobs found for the search criteria";
                      total_jobs := 0;
                      jobs := [] |}, t'))
  ∧ (∃ r t',
       search_jobs_post (Importable scrape_jobs) sample_request []
         = (Returned r, t')
       ∧ success r = true ∧ total_jobs r = 0 ∧ jobs r = []).
Proof.
  intros scrape_jobs.
  split; [reflexivity|].
  destruct (no_rows_is_success scrape_jobs [] (Some no_rows_df) eq_refl)
    as [Hsimple Hpost].
  split.
  - exact (Hsimple "developer" "Remote" 5 eq_refl).
  - exact (Hpost sample_request eq_refl).
Defined.

(** The example of the specification: the query
    [search_term=developer&location=Remote&results_wanted=5], to which the
    scraper answers with nothing. *)
Example search_simple_no_results :
  (route_search_jobs_simple (Importable (λ _, ScrapeReturns None))
     {| query_search_term := Some "developer";
        query_location := Some "Remote";
        query_results_wanted := Some 5 |} []).1
  = Response200 {| success := true;
                   message := "No jobs found for the search criteria";
                   total_jobs := 0;
                   jobs := [] |}.
Proof. reflexivity. Qed.

Lemma nan_becomes_none_witness :
  let scrape_jobs := λ _ : kwargs, ScrapeReturns (Some sample_df) in
  empty sample_df = false
  ∧ (∃ r t',
       search_jobs_simple (Importable scrape_jobs) "developer" "Remote" 5 []
         = (Returned r, t')
       ∧ nan_normalized (to_dict_records sample_df) (jobs r))
  ∧ (∃ r t',
       search_jobs_post (Importable scrape_jobs) sample_request []
         = (Returned r, t')
       ∧ nan_normalized (to_dict_records sample_df) (jobs r)).
Proof.
  intros scrape_jobs.
  split; [reflexivity|].
  destruct (nan_becomes_none scrape_jobs [] sample_df eq_refl)
    as [Hsimple Hpost].
  split.
  - exact (Hsimple "developer" "Remote" 5 eq_refl).
  - exact (Hpost sample_request eq_refl).
Defined.

Example sample_records_cleaned :
  clean_nan_values (to_dict_records sample_df)
  = [ {[ "title" := VStr "dev"; "min_amount" := VNone ]};
      {[ "title" := VStr "ops"; "min_amount" := VInt 3 ]} ].
Proof. vm_compute. reflexivity. Qed.

Lemma scrape_exception_is_500_witness :
  let scrape_jobs := λ _ : kwargs, ScrapeRaises (Exception "blocked") in
  (∃ detail t',
     respond (search_jobs_simple (Importable scrape_jobs)
                "developer" "Remote" 5) []
       = (ErrorResponse 500 detail, t')
     ∧ detail = "Search failed: blocked"
     ∧ detail ≠ ""
     ∧ contains detail "blocked")
  ∧ (∃ detail t',
     respond (search_jobs_post (Importable scrape_jobs) sample_request) []
       = (ErrorResponse 500 detail, t')
     ∧ detail = "blocked"
     ∧ contains detail "blocked").
Proof.
  intros scrape_jobs.
  destruct (scrape_exception_is_500 scrape_jobs [] (Exception "blocked"))
    as [Hsimple Hpost].
  split.
  - exact (Hsimple "developer" "Remote" 5 eq_refl).
  - exact (Hpost sample_request eq_refl).
Defined.

(** An exception whose text is empty, such as [Exception()]: the detail of
    the advanced route is the empty string. *)
Lemma post_detail_empty :
  str (Exception "") = ""
  ∧ (respond (search_jobs_post
                (Importable (λ _, ScrapeRaises (Exception "")))
                sample_request) []).1
    = ErrorResponse 500 "".
Proof. split; reflexivity. Qed.

Example post_params_sample :
  map_to_list (remove_empty_values (search_params sample_request))
  ≡ₚ [ ("search_term", PStr "developer");
       ("site_name", PList ["indeed"]);
       ("results_wanted", PInt 10) ].
Proof. vm_compute. by rewrite (Permutation_swap _ _ [_]). Qed.

Lemma post_handles_like_simple_witness :
  let scrape_jobs := λ _ : kwargs, ScrapeReturns (Some sample_df) in
  scrape_jobs (simple_params "developer" "Remote" 5)
    = ScrapeReturns (Some sample_df)
  ∧ scrape_jobs (remove_empty_values (search_params sample_request))
    = ScrapeReturns (Some sample_df)
  ∧ ∃ r1 r2 t1' t2',
      search_jobs_simple (Importable scrape_jobs) "developer" "Remote" 5 []
        = (Returned r1, t1')
      ∧ search_jobs_post (Importable scrape_jobs) sample_request []
        = (Returned r2, t2')
      ∧ success r1 = success r2
      ∧ total_jobs r1 = total_jobs r2
      ∧ jobs r1 = jobs r2
      ∧ message r1 = message r2.
Proof.
  intros scrape_jobs.
  split; [reflexivity|]. split; [reflexivity|].
  exact (post_handles_like_simple scrape_jobs [] (Some sample_df)
           "developer" "Remote" 5 sample_request [] eq_refl eq_refl).
Defined.

(** On a result without rows the two messages differ. *)
Lemma messages_differ_on_no_rows :
  let scrape_jobs := λ _ : kwargs, ScrapeReturns (Some no_rows_df) in
  ∃ r1 r2 t1' t2',
    search_jobs_simple (Importable scrape_jobs) "developer" "Remote" 5 []
      = (Returned r1, t1')
    ∧ search_jobs_post (Importable scrape_jobs) sample_request []
      = (Returned r2, t2')
    ∧ message r1 ≠ message r2.
Proof.
  intros scrape_jobs. run_handler. by eexists _, _, _, _.
Qed.

(** ** The cleaning loop as a whole *)

(** C10: the cleaning loop of both search handlers keeps the number of
    rows, keeps the rows in their order (row [i] of the result is row [i]
    of the input with [nan_to_none] applied to its values) and keeps the
    set of field names of every row. *)
Theorem cleaning_keeps_shape (jobs_list : list row) :
  length (clean_nan_values jobs_list) = length jobs_list
  ∧ (∀ i : nat,
       clean_nan_values jobs_list !! i
       = (λ job : row, nan_to_none <$> job) <$> jobs_list !! i)
  ∧ (∀ i : nat,
       (dom <$> clean_nan_values jobs_list !! i : option (gset string))
       = dom <$> jobs_list !! i).
Proof.
  split; [apply clean_nan_values_length|].
  split; intros i; rewrite clean_nan_values_lookup.
  - destruct (jobs_list !! i) as [job|]; simpl; [|done].
    by rewrite clean_job_fmap.
  - destruct (jobs_list !! i) as [job|]; simpl; [|done].
    by rewrite clean_job_dom.
Qed.

(** ** Request validation *)

(** C5: a request whose [results_wanted] is an integer outside 1..20 on
    the simple route, or outside 1..50 on the advanced route, is answered
    with the 422 of the validation; no event happened, so [scrape_jobs] was
    not called. *)
Theorem results_wanted_out_of_range
    (jobspy : jobspy_module) (n : Z) (t : list event) :
  (∀ q,
     query_results_wanted q = Some n → ¬ (1 ≤ n ≤ 20) →
     route_search_jobs_simple jobspy q t = (ValidationError422, t))
  ∧ (∀ b,
     body_results_wanted b = Given n → ¬ (1 ≤ n ≤ 50) →
     route_search_jobs_post jobspy b t = (ValidationError422, t)).
Proof.
  split.
  - intros q Hq Hn. unfold route_search_jobs_simple.
    destruct (query_search_term q); [|done].
    rewrite Hq. simpl. unfold ge_le.
    do 2 case_bool_decide; simpl; [lia|done..].
  - intros b Hb Hn. unfold route_search_jobs_post.
    assert (validate_JobSearchRequest b = None) as ->; [|done].
    unfold validate_JobSearchRequest. rewrite Hb.
    destruct (plain_field None _); simpl; [|done].
    destruct (plain_field (Some "") _); simpl; [|done].
    destruct (plain_field (Some ["indeed"]) _); simpl; [|done].
    unfold ge_le. do 2 case_bool_decide; simpl; [lia|done..].
Qed.

Lemma results_wanted_out_of_range_witness :
  let q := {| query_search_term := Some "developer";
              query_location := None;
              query_results_wanted := Some 21 |} in
  let b := {| body_search_term := Given "developer";
              body_location := Absent;
              body_site_name := Absent;
              body_results_wanted := Given 0;
              body_is_remote := Absent |} in
  let jobspy := Importable (λ _, ScrapeReturns (Some sample_df)) in
  (query_results_wanted q = Some 21 ∧ ¬ (1 ≤ 21 ≤ 20)
   ∧ route_search_jobs_simple jobspy q [] = (ValidationError422, []))
  ∧ (body_results_wanted b = Given 0 ∧ ¬ (1 ≤ 0 ≤ 50)
     ∧ route_search_jobs_post jobspy b [] = (ValidationError422, [])).
Proof.
  intros q b jobspy.
  assert (H21 : ¬ (1 ≤ 21 ≤ 20)) by lia.
  assert (H0 : ¬ (1 ≤ 0 ≤ 50)) by lia.
  split.
  - split; [reflexivity|]. split; [exact H21|].
    exact (proj1 (results_wanted_out_of_range jobspy 21 []) q eq_refl H21).
  - split; [reflexivity|]. split; [exact H0|].
    exact (proj2 (results_wanted_out_of_range jobspy 0 []) b eq_refl H0).
Defined.

(** An explicit [null] passes the validation of the advanced route and is
    then dropped as a falsy parameter. *)
Example results_wanted_null :
  scrape_calls
    (route_search_jobs_post (Importable (λ _, ScrapeReturns None))
       {| body_search_term := Given "developer";
          body_location := Absent;
          body_site_name := Absent;
          body_results_wanted := Null;
          body_is_remote := Absent |} []).2
  = [ {[ "search_term" := PStr "developer";
         "site_name" := PList ["indeed"] ]} ].
Proof. vm_compute. reflexivity. Qed.

Example results_wanted_in_range :
  scrape_calls
    (route_search_jobs_simple (Importable (λ _, ScrapeReturns None))
       {| query_search_term := Some "developer";
          query_location := None;
          query_results_wanted := Some 20 |} []).2
  = [simple_params "developer" "" 20].
Proof. reflexivity. Qed.

(** ** Diagnostics and the site list *)

(** C8: [test_jobspy] always returns its dict: when the import raises, the
    status is "error", the message carries the text of the exception and
    [jobspy_imported] is false; when the import works, the status is
    "success" and [jobspy_imported] is true.  [scrape_jobs] is not
    called. *)
Theorem test_jobspy_reports (t : list event) :
  (∀ e : exn,
     ∃ r t',
       respond (test_jobspy (ImportRaises e)) t = (Response200 r, t')
       ∧ status r = "error"
       ∧ test_message r = "JobSpy test failed: " +:+ str e
       ∧ contains (test_message r) (str e)
       ∧ jobspy_imported r = false
       ∧ scrape_calls t' = scrape_calls t)
  ∧ (∀ scrape_jobs : kwargs → scrape_result,
     ∃ r t',
       respond (test_jobspy (Importable scrape_jobs)) t = (Response200 r, t')
       ∧ status r = "success"
       ∧ test_message r = "JobSpy is working correctly"
       ∧ jobspy_imported r = true
       ∧ scrape_calls t' = scrape_calls t).
Proof.
  split; intros; unfold respond; run_handler.
  - eexists _, _. split; [done|]. simpl.
    repeat split; [apply contains_suffix|].
    by rewrite scrape_calls_app, app_nil_r.
  - eexists _, _. split; [done|]. simpl.
    repeat split. by rewrite scrape_calls_app, app_nil_r.
Qed.

(** C9: [get_supported_sites] returns the same five site names and the same
    note whatever came before; it has no argument and reads nothing. *)
Theorem supported_sites_fixed (t : list event) :
  ∃ r : SupportedSites,
    get_supported_sites t = (Returned r, t)
    ∧ respond get_supported_sites t = (Response200 r, t)
    ∧ supported_sites r
      = ["indeed"; "linkedin"; "glassdoor"; "google"; "ziprecruiter"]
    ∧ length (supported_sites r) = 5%nat
    ∧ note r = "Indeed is most reliable for testing".
Proof. by eexists. Qed.

(** * Further properties of the code *)

Set Warnings "-clear-no-such-hyp".

(** ** More on the cleaning loop *)

Lemma nan_to_none_cleaned (v : value) : cleaned (nan_to_none v).
Proof. unfold cleaned, nan_to_none. destruct (isna v) eqn:E; auto. Qed.

Lemma nan_to_none_idemp (v : value) : nan_to_none (nan_to_none v) = nan_to_none v.
Proof. unfold nan_to_none. destruct (isna v) eqn:E; [done|by rewrite E]. Qed.

Lemma nan_to_none_id (v : value) : isna v = false → nan_to_none v = v.
Proof. unfold nan_to_none. by intros ->. Qed.

Lemma dict_of_items_snoc (items : list (string * value)) (k : string) (v : value) :
  dict_of_items (items ++ [(k, v)]) = <[k := v]> (dict_of_items items).
Proof. unfold dict_of_items. by rewrite foldl_app. Qed.

Lemma dict_of_items_dom (items : list (string * value)) :
  dom (dict_of_items items) = list_to_set items.*1.
Proof.
  induction items as [|[k v] items IH] using rev_ind; [apply dom_empty_L|].
  rewrite dict_of_items_snoc, dom_insert_L, IH, fmap_app, list_to_set_app_L.
  simpl. rewrite (right_id_L ∅ (∪)). apply (comm_L (∪)).
Qed.

Lemma dict_of_items_elem (items : list (string * value)) (k : string) (v : value) :
  dict_of_items items !! k = Some v → (k, v) ∈ items.
Proof.
  induction items as [|[k' v'] items IH] using rev_ind; [done|].
  rewrite dict_of_items_snoc, elem_of_app, list_elem_of_singleton.
  destruct (decide (k' = k)) as [->|Hne].
  - rewrite lookup_insert_eq. intros [= ->]. by right.
  - rewrite lookup_insert_ne by done. auto.
Qed.

Lemma dict_of_items_lookup (items : list (string * value)) (k : string) (v : value) :
  NoDup items.*1 → (k, v) ∈ items → dict_of_items items !! k = Some v.
Proof.
  induction items as [|[k' v'] items IH] using rev_ind; [by intros _ ?%elem_of_nil|].
  rewrite fmap_app, dict_of_items_snoc, elem_of_app, list_elem_of_singleton.
  intros [Hnd [Hdisj _]]%NoDup_app [Hin|[= -> ->]].
  - rewrite lookup_insert_ne; [by apply IH|].
    intros ->. apply (Hdisj k).
    + by apply (list_elem_of_fmap_2 fst _ (k, v)).
    + simpl. apply list_elem_of_here.
  - by rewrite lookup_insert_eq.
Qed.

Lemma clean_job_id (job : row) :
  map_Forall (λ _ v, isna v = false) job → clean_job job = job.
Proof.
  intros Hjob. rewrite clean_job_fmap. apply map_eq. intros key.
  rewrite lookup_fmap. destruct (job !! key) as [v|] eqn:E; simpl; [|done].
  by rewrite (nan_to_none_id v (Hjob key v E)).
Qed.

Lemma record_cells (cols : list string) (cells : list value) (k : string) (v : value) :
  dict_of_items (zip cols cells) !! k = Some v → v ∈ cells.
Proof.
  intros [j [k' [v' [[= -> ->] [_ Hv]]]]]%dict_of_items_elem%elem_of_lookup_zip_with.
  by eapply list_elem_of_lookup_2.
Qed.

Lemma clean_nan_values_cleaned (jobs_list : list row) :
  Forall (map_Forall (λ _ v, cleaned v)) (clean_nan_values jobs_list).
Proof.
  unfold clean_nan_values.
  apply Forall_fmap, Forall_true. intros job key v.
  rewrite clean_job_lookup. destruct (job !! key) as [v0|]; [|done].
  intros [= <-]. apply nan_to_none_cleaned.
Qed.

(** X2: the cleaning loop is idempotent: running it on its own result
    changes nothing. *)
Theorem cleaning_idempotent (jobs_list : list row) :
  clean_nan_values (clean_nan_values jobs_list) = clean_nan_values jobs_list.
Proof.
  unfold clean_nan_values.
  rewrite <- list_fmap_compose. apply list_fmap_ext. intros _ job _. simpl.
  rewrite !clean_job_fmap, <- map_fmap_compose.
  apply map_fmap_ext. intros _ v _. apply nan_to_none_idemp.
Qed.

(** X1: whatever the import and [scrape_jobs] do, no job of a returned
    response holds a missing-value marker other than [None]: no NaN, no
    [pd.NaT], no [pd.NA]. *)
Theorem jobs_are_cleaned (jobspy : jobspy_module)
    (search_term location : string) (results_wanted : Z)
    (request : JobSearchRequest) (t : list event) :
  match (search_jobs_simple jobspy search_term location results_wanted t).1 with
  | Returned r => Forall (map_Forall (λ _ v, cleaned v)) (jobs r)
  | Raised _ => True
  end
  ∧ match (search_jobs_post jobspy request t).1 with
    | Returned r => Forall (map_Forall (λ _ v, cleaned v)) (jobs r)
    | Raised _ => True
    end.
Proof.
  split; run_handler.
  all: destruct jobspy as [e|scrape_jobs]; [done|]; cbn beta iota.
  all: destruct (scrape_jobs _) as [[df|]|e]; cbn beta iota; [| |done].
  all: try destruct (empty df); cbn beta iota; simpl; try done.
  all: apply clean_nan_values_cleaned.
Qed.


Lemma records_marker_free (df : DataFrame) :
  no_marker df → clean_nan_values (to_dict_records df) = to_dict_records df.
Proof.
  unfold no_marker, clean_nan_values, to_dict_records. intros Hdf.
  rewrite <- list_fmap_compose.
  apply list_fmap_ext. intros i cells Hi. simpl.
  apply clean_job_id. intros key v Hv%record_cells.
  pose proof (Forall_lookup_1 _ _ _ _ Hdf Hi) as Hcells.
  by apply (proj1 (Forall_forall _ _) Hcells).
Qed.

Lemma records_table (df : DataFrame) :
  rectangular df → NoDup (columns df) →
  table_in_jobs df (clean_nan_values (to_dict_records df)).
Proof.
  intros Hrect Hnd. split; [apply len_records|].
  intros i cells Hi.
  assert (Hlen : length cells = length (columns df)).
  { eapply Forall_lookup_1 in Hrect; [apply Hrect|done]. }
  assert (Hfst : (zip (columns df) cells).*1 = columns df).
  { apply fst_zip. by rewrite Hlen. }
  exists (clean_job (dict_of_items (zip (columns df) cells))).
  split; [|split].
  - unfold clean_nan_values, to_dict_records.
    by rewrite !list_lookup_fmap, Hi.
  - by rewrite clean_job_dom, dict_of_items_dom, Hfst.
  - intros j key v Hkey Hv. rewrite clean_job_lookup.
    rewrite (dict_of_items_lookup _ key v); [done|by rewrite Hfst|].
    apply elem_of_lookup_zip_with. by exists j, key, v.
Qed.

(** ** From the table to the jobs *)

Section Table.

Context (scrape_jobs : kwargs → scrape_result) (t : list event).

(** X3: when the returned table is not empty and holds no missing-value
    marker, the [jobs] of both handlers are the records of the table as
    they are. *)
Theorem marker_free_table_unchanged (df : DataFrame) :
  empty df = false → no_marker df →
  (∀ search_term location results_wanted,
     scrape_jobs (simple_params search_term location results_wanted)
       = ScrapeReturns (Some df) →
     ∃ r t',
       search_jobs_simple (Importable scrape_jobs)
         search_term location results_wanted t = (Returned r, t')
       ∧ jobs r = to_dict_records df)
  ∧ (∀ request,
     scrape_jobs (remove_empty_values (search_params request))
       = ScrapeReturns (Some df) →
     ∃ r t',
       search_jobs_post (Importable scrape_jobs) request t = (Returned r, t')
       ∧ jobs r = to_dict_records df).
Proof.
  intros Hempty Hdf.
  split; intros; run_handler; rewrite H; cbn beta iota; rewrite Hempty.
  all: eexists _, _; split; [done|]; simpl.
  all: by apply records_marker_free.
Qed.

(** X4: when the returned table is not empty, has one cell per column in
    every row and no column label twice, row [i] of [jobs] has exactly the
    column labels as field names and holds, under the label of column [j],
    cell [j] of row [i] of the table with a marker turned into [None]. *)
Theorem cells_reach_jobs (df : DataFrame) :
  empty df = false → rectangular df → NoDup (columns df) →
  (∀ search_term location results_wanted,
     scrape_jobs (simple_params search_term location results_wanted)
       = ScrapeReturns (Some df) →
     ∃ r t',
       search_jobs_simple (Importable scrape_jobs)
         search_term location results_wanted t = (Returned r, t')
       ∧ table_in_jobs df (jobs r))
  ∧ (∀ request,
     scrape_jobs (remove_empty_values (search_params request))
       = ScrapeReturns (Some df) →
     ∃ r t',
       search_jobs_post (Importable scrape_jobs) request t = (Returned r, t')
       ∧ table_in_jobs df (jobs r)).
Proof.
  intros Hempty Hrect Hnd.
  split; intros; run_handler; rewrite H; cbn beta iota; rewrite Hempty.
  all: eexists _, _; split; [done|]; simpl.
  all: by apply records_table.
Qed.

End Table.

(** ** Validation of the request body *)

Lemma validate_inv (b : JobSearchBody) (request : JobSearchRequest) :
  validate_JobSearchRequest b = Some request →
  plain_field None (body_search_term b) = Some (search_term request)
  ∧ plain_field (Some "") (body_location b) = Some (location request)
  ∧ plain_field (Some ["indeed"]) (body_site_name b) = Some (site_name request)
  ∧ optional_field (Some 10) (ge_le 1 50) (body_results_wanted b)
    = Some (results_wanted request)
  ∧ optional_field (Some false) (λ _, true) (body_is_remote b)
    = Some (is_remote request).
Proof.
  unfold validate_JobSearchRequest.
  destruct (plain_field None _); simpl; [|done].
  destruct (plain_field (Some "") _); simpl; [|done].
  destruct (plain_field (Some ["indeed"]) _); simpl; [|done].
  destruct (optional_field (Some 10) _ _); simpl; [|done].
  destruct (optional_field (Some false) _ _); simpl; [|done].
  by intros [= <-].
Qed.

Lemma ge_le_spec (lo hi v : Z) : ge_le lo hi v = true ↔ lo ≤ v ≤ hi.
Proof.
  unfold ge_le. rewrite andb_true_iff, !bool_decide_eq_true. done.
Qed.

Lemma validated_results_wanted (b : JobSearchBody) (request : JobSearchRequest)
    (n : Z) :
  validate_JobSearchRequest b = Some request →
  results_wanted request = Some n → 1 ≤ n ≤ 50.
Proof.
  intros (_ & _ & _ & Hrw & _)%validate_inv Hn. rewrite Hn in Hrw.
  destruct (body_results_wanted b) as [| |m]; simpl in Hrw.
  - injection Hrw as <-. lia.
  - done.
  - destruct (ge_le 1 50 m) eqn:E; [|done].
    injection Hrw as ->. by apply ge_le_spec.
Qed.

(** ** The search routes as a whole *)

(** X7: whatever the import does, and whatever [scrape_jobs] returns or
    whichever [Exception] it raises, a search handler either returns a
    response whose [success] is true or raises an [HTTPException] of status
    500; no other exception leaves the handler, and the last event before
    the [HTTPException] is the error log that carries its detail. *)
Theorem search_handlers_outcome (jobspy : jobspy_module)
    (search_term location : string) (results_wanted : Z)
    (request : JobSearchRequest) (t : list event) :
  match search_jobs_simple jobspy search_term location results_wanted t with
  | (Returned r, _) => success r = true
  | (Raised (HTTPException status_code detail), t') =>
      status_code = 500 ∧ last t' = Some (LogError detail)
  | (Raised (Exception _), _) => False
  end
  ∧ match search_jobs_post jobspy request t with
    | (Returned r, _) => success r = true
    | (Raised (HTTPException status_code detail), t') =>
        status_code = 500
        ∧ last t' = Some (LogError ("POST search failed: " +:+ detail))
    | (Raised (Exception _), _) => False
    end.
Proof.
  split; run_handler.
  all: destruct jobspy as [e|scrape_jobs]; cbn beta iota;
    [split; [done|apply last_snoc]|].
  all: destruct (scrape_jobs _) as [[df|]|e]; cbn beta iota.
  all: try (by destruct (empty df)).
  all: done || (split; [done|apply last_snoc]).
Qed.

Lemma scrape_calls_snoc_log (t : list event) (msg : string) :
  scrape_calls (t ++ [LogInfo msg]) = scrape_calls t
  ∧ scrape_calls (t ++ [LogError msg]) = scrape_calls t.
Proof. by rewrite !scrape_calls_app, !app_nil_r. Qed.

Lemma scrape_calls_snoc_call (t : list event) (kw : kwargs) :
  scrape_calls (t ++ [ScrapeJobs kw]) = scrape_calls t ++ [kw].
Proof. by rewrite scrape_calls_app. Qed.

Ltac calls :=
  repeat first
    [ rewrite (proj1 (scrape_calls_snoc_log _ _))
    | rewrite (proj2 (scrape_calls_snoc_log _ _))
    | rewrite scrape_calls_snoc_call ].

Ltac no_call :=
  exists []; simpl; calls; rewrite ?app_nil_r;
  split; [done|split; [simpl; lia|constructor]].

(** X8: a request makes at most one call of [scrape_jobs].  The call of
    the simple route asks for the site "indeed" and a [results_wanted]
    within 1..20; the call of the advanced route has a [results_wanted]
    within 1..50 or none. *)
Theorem scrape_params_within_bounds (jobspy : jobspy_module) (q : SimpleQuery)
    (b : JobSearchBody) (t : list event) :
  (∃ new : list kwargs,
     scrape_calls (route_search_jobs_simple jobspy q t).2
       = scrape_calls t ++ new
     ∧ (length new ≤ 1)%nat
     ∧ Forall (λ kw : kwargs,
                 kw !! "site_name" = Some (PList ["indeed"])
                 ∧ ∃ n, kw !! "results_wanted" = Some (PInt n) ∧ 1 ≤ n ≤ 20)
              new)
  ∧ (∃ new : list kwargs,
     scrape_calls (route_search_jobs_post jobspy b t).2
       = scrape_calls t ++ new
     ∧ (length new ≤ 1)%nat
     ∧ Forall (λ kw : kwargs,
                 match kw !! "results_wanted" with
                 | Some p => ∃ n, p = PInt n ∧ 1 ≤ n ≤ 50
                 | None => True
                 end)
              new).
Proof.
  split.
  - unfold route_search_jobs_simple.
    destruct (query_search_term q) as [st|]; [|no_call].
    simpl. destruct (ge_le 1 20 _) eqn:E; [|no_call].
    apply ge_le_spec in E.
    unfold respond. run_handler.
    destruct jobspy as [e|scrape_jobs]; cbn beta iota; [no_call|].
    exists [simple_params st (default "" (query_location q))
                             (default 5 (query_results_wanted q))].
    split; [|split; [done|apply Forall_singleton; split; [done|by eexists]]].
    destruct (scrape_jobs _) as [[df|]|e]; cbn beta iota.
    1: destruct (empty df); cbn beta iota.
    all: simpl; by calls.
  - unfold route_search_jobs_post.
    destruct (validate_JobSearchRequest b) as [request|] eqn:Hval; [|no_call].
    unfold respond. run_handler.
    destruct jobspy as [e|scrape_jobs]; cbn beta iota; [no_call|].
    exists [remove_empty_values (search_params request)].
    split; [|split; [done|apply Forall_singleton]].
    + destruct (scrape_jobs _) as [[df|]|e]; cbn beta iota.
      1: destruct (empty df); cbn beta iota.
      all: simpl; by calls.
    + destruct (_ !! "results_wanted") as [p|] eqn:Hp; [|done].
      apply remove_empty_values_lookup in Hp as [Hp Htruthy].
      unfold search_params in Hp. simplify_map_eq.
      destruct (results_wanted request) as [n|] eqn:Hn; [|done].
      exists n. split; [done|]. by eapply validated_results_wanted.
Qed.

(** X9: the keyword arguments that the advanced handler passes for a
    validated request, key by key: the search term, the location and the
    site list unless empty, [results_wanted] unless null, [is_remote] only
    when true, and no other key. *)
Theorem post_params_by_key (b : JobSearchBody) (request : JobSearchRequest) :
  validate_JobSearchRequest b = Some request →
  let kw := remove_empty_values (search_params request) in
  kw !! "search_term"
    = (if bool_decide (search_term request = "") then None
       else Some (PStr (search_term request)))
  ∧ kw !! "location"
    = (if bool_decide (location request = "") then None
       else Some (PStr (location request)))
  ∧ kw !! "site_name"
    = (if bool_decide (site_name request = []) then None
       else Some (PList (site_name request)))
  ∧ kw !! "results_wanted" = PInt <$> results_wanted request
  ∧ kw !! "is_remote"
    = (if is_remote request is Some true then Some (PBool true) else None)
  ∧ dom kw ⊆ {[ "search_term"; "location"; "site_name"; "results_wanted";
                "is_remote" ]}.
Proof.
  intros Hval kw. subst kw.
  rewrite !remove_empty_values_key. unfold search_params.
  repeat split.
  - simplify_map_eq. simpl. by case_bool_decide.
  - simplify_map_eq. simpl. by case_bool_decide.
  - simplify_map_eq. simpl. by case_bool_decide.
  - simplify_map_eq.
    destruct (results_wanted request) as [n|] eqn:Hn; simpl; [|done].
    pose proof (validated_results_wanted b request n Hval Hn).
    case_bool_decide; [lia|done].
  - simplify_map_eq. by destruct (is_remote request) as [[]|].
  - intros k [v Hv]%elem_of_dom.
    apply remove_empty_values_lookup in Hv as [Hv _].
    apply elem_of_dom_2 in Hv. revert Hv.
    rewrite !dom_insert_L, dom_singleton_L. set_solver.
Qed.

Lemma records_nonempty (df : DataFrame) :
  empty df = false → clean_nan_values (to_dict_records df) ≠ [].
Proof.
  intros [_ Hdata]%empty_false Hnil.
  apply (f_equal length) in Hnil. rewrite len_records in Hnil.
  unfold nrows in Hnil. by destruct (data df).
Qed.

(** X10: the message of a returned response follows its jobs: the
    no-jobs text of the handler when [jobs] is empty, "Found N jobs" with
    N the number of jobs when it is not. *)
Theorem message_tells_count (jobspy : jobspy_module)
    (search_term location : string) (results_wanted : Z)
    (request : JobSearchRequest) (t : list event) :
  match (search_jobs_simple jobspy search_term location results_wanted t).1 with
  | Returned r =>
      message r
      = (if bool_decide (jobs r = [])
         then "No jobs found for the search criteria"
         else "Found " +:+ pretty (len (jobs r)) +:+ " jobs")
  | Raised _ => True
  end
  ∧ match (search_jobs_post jobspy request t).1 with
    | Returned r =>
        message r
        = (if bool_decide (jobs r = [])
           then "No jobs found"
           else "Found " +:+ pretty (len (jobs r)) +:+ " jobs")
    | Raised _ => True
    end.
Proof.
  split; run_handler.
  all: destruct jobspy as [e|scrape_jobs]; [done|]; cbn beta iota.
  all: destruct (scrape_jobs _) as [[df|]|e]; cbn beta iota; [| |done].
  all: try destruct (empty df) eqn:E; cbn beta iota; simpl; try done.
  all: case_bool_decide as Hnil; [|done].
  all: by apply records_nonempty in Hnil.
Qed.

(** X11: when the import of [jobspy] fails, both search routes answer 500
    with the text of the exception as for a failed scrape, log the error
    last, and do not call [scrape_jobs]. *)
Theorem import_failure_is_500 (e : exn) (search_term location : string)
    (results_wanted : Z) (request : JobSearchRequest) (t : list event) :
  (∃ t',
     respond (search_jobs_simple (ImportRaises e)
                search_term location results_wanted) t
       = (ErrorResponse 500 ("Search failed: " +:+ str e), t')
     ∧ scrape_calls t' = scrape_calls t
     ∧ last t' = Some (LogError ("Search failed: " +:+ str e)))
  ∧ (∃ t',
     respond (search_jobs_post (ImportRaises e) request) t
       = (ErrorResponse 500 (str e), t')
     ∧ scrape_calls t' = scrape_calls t
     ∧ last t' = Some (LogError ("POST search failed: " +:+ str e))).
Proof.
  split; unfold respond; run_handler.
  all: eexists; split; [done|]; split; [by calls|apply last_snoc].
Qed.

(** ** The health route *)


Lemma append_cons (c : ascii) (s s' : string) :
  String c s +:+ s' = String c (s +:+ s').
Proof. reflexivity. Qed.

Lemma append_nil_l (s : string) : "" +:+ s = s.
Proof. reflexivity. Qed.

Lemma append_assoc (a b c : string) : (a +:+ b) +:+ c = a +:+ (b +:+ c).
Proof.
  induction a as [|x a IH]; [done|].
  by rewrite !append_cons, IH.
Qed.

Lemma all_chars_app (p : ascii → bool) (a b : string) :
  all_chars p (a +:+ b) = all_chars p a && all_chars p b.
Proof.
  induction a as [|x a IH]; [done|].
  rewrite append_cons. simpl. by rewrite IH, andb_assoc.
Qed.

Lemma append_snoc_nonempty (word : string) (c : ascii) :
  word +:+ String c "" ≠ "".
Proof. by destruct word. Qed.

Lemma split_from_spec (s word : string) :
  all_chars nonspace word = true →
  match split_from word s with
  | [] => word = "" ∧ all_chars isspace s = true
  | tok :: _ =>
      ∃ lead mid rest,
        s = lead +:+ mid +:+ rest
        ∧ tok = word +:+ mid
        ∧ tok ≠ ""
        ∧ all_chars nonspace tok = true
        ∧ all_chars isspace lead = true
        ∧ at_word_end rest = true
        ∧ (word ≠ "" → lead = "")
  end.
Proof.
  revert word. induction s as [|c s IH]; intros word Hword; simpl.
  - case_bool_decide as Hw; [done|].
    exists "", "", "". rewrite !append_empty_r. by repeat split.
  - destruct (isspace c) eqn:Hc.
    + case_bool_decide as Hw.
      * subst word. specialize (IH "" eq_refl).
        destruct (split_from "" s) as [|tok l]; [by destruct IH as [_ ->]|].
        destruct IH as (lead & mid & rest & -> & -> & Htok & Hns & Hlead & Hrest & _).
        exists (String c lead), mid, rest.
        rewrite append_cons. simpl. rewrite Hc, Hlead. done.
      * exists "", "", (String c s).
        rewrite append_empty_r. simpl. by rewrite Hc.
    + assert (Hword' : all_chars nonspace (word +:+ String c "") = true).
      { rewrite all_chars_app, Hword. simpl. unfold nonspace. by rewrite Hc. }
      specialize (IH _ Hword').
      destruct (split_from (word +:+ String c "") s) as [|tok l].
      { destruct IH as [H _]. by apply append_snoc_nonempty in H. }
      destruct IH as (lead & mid & rest & -> & -> & Htok & Hns & _ & Hrest & Hlead).
      rewrite (Hlead (append_snoc_nonempty word c)).
      exists "", (String c mid), rest.
      rewrite append_assoc in *. rewrite !append_nil_l, !append_cons in *.
      rewrite append_nil_l in *. done.
Qed.

(** X13: [health_check] makes no event.  When it returns, the status is
    "healthy", the Python version is the first run of [sys.version] without
    white space (not empty, preceded by white space only, followed by white
    space or the end) and the working directory is what [os.getcwd()]
    returned.  It raises only when [sys.version] is blank or when
    [os.getcwd()] raises. *)
Theorem health_reports_version_token (proc : process) (t : list event) :
  match health_check proc t with
  | (Returned r, t') =>
      t' = t
      ∧ health_status r = "healthy"
      ∧ timestamp r = utcnow_isoformat proc
      ∧ os_getcwd proc = Returned (working_directory r)
      ∧ python_version r ≠ ""
      ∧ all_chars nonspace (python_version r) = true
      ∧ ∃ lead rest,
          sys_version proc = lead +:+ python_version r +:+ rest
          ∧ all_chars isspace lead = true
          ∧ at_word_end rest = true
  | (Raised e, t') =>
      t' = t
      ∧ ((all_chars isspace (sys_version proc) = true
          ∧ e = Exception "list index out of range")
         ∨ os_getcwd proc = Raised e)
  end.
Proof.
  unfold health_check, getitem0, getcwd, split, raise, mbind, Eff_bind, mret,
    Eff_ret.
  pose proof (split_from_spec (sys_version proc) "" eq_refl) as Hsplit.
  destruct (split_from "" (sys_version proc)) as [|tok l]; cbn beta iota.
  - destruct Hsplit as [_ Hsp]. split; [done|by left].
  - destruct Hsplit as (lead & mid & rest & Hs & -> & Htok & Hns & Hlead & Hrest & _).
    rewrite append_nil_l in *.
    destruct (os_getcwd proc) as [cwd|e]; cbn beta iota; simpl.
    + repeat (split; [done|]). by exists lead, rest.
    + split; [done|by right].
Qed.



Lemma marker_free_table_unchanged_witness :
  let scrape_jobs := λ _ : kwargs, ScrapeReturns (Some marker_free_df) in
  empty marker_free_df = false
  ∧ no_marker marker_free_df
  ∧ (∃ r t',
       search_jobs_simple (Importable scrape_jobs) "developer" "Remote" 5 []
         = (Returned r, t')
       ∧ jobs r = to_dict_records marker_free_df)
  ∧ (∃ r t',
       search_jobs_post (Importable scrape_jobs) sample_request []
         = (Returned r, t')
       ∧ jobs r = to_dict_records marker_free_df).
Proof.
  intros scrape_jobs.
  assert (Hfree : no_marker marker_free_df) by (repeat constructor).
  split; [reflexivity|]. split; [exact Hfree|].
  destruct (marker_free_table_unchanged scrape_jobs [] marker_free_df
              eq_refl Hfree) as [Hsimple Hpost].
  split.
  - exact (Hsimple "developer" "Remote" 5 eq_refl).
  - exact (Hpost sample_request eq_refl).
Defined.

Lemma cells_reach_jobs_witness :
  let scrape_jobs := λ _ : kwargs, ScrapeReturns (Some sample_df) in
  empty sample_df = false
  ∧ rectangular sample_df
  ∧ NoDup (columns sample_df)
  ∧ (∃ r t',
       search_jobs_simple (Importable scrape_jobs) "developer" "Remote" 5 []
         = (Returned r, t')
       ∧ table_in_jobs sample_df (jobs r))
  ∧ (∃ r t',
       search_jobs_post (Importable scrape_jobs) sample_request []
         = (Returned r, t')
       ∧ table_in_jobs sample_df (jobs r)).
Proof.
  intros scrape_jobs.
  assert (Hrect : rectangular sample_df) by (repeat constructor).
  assert (Hnd : NoDup (columns sample_df))
    by (apply (bool_decide_unpack _); vm_compute; exact I).
  split; [reflexivity|]. split; [exact Hrect|]. split; [exact Hnd|].
  destruct (cells_reach_jobs scrape_jobs [] sample_df eq_refl Hrect Hnd)
    as [Hsimple Hpost].
  split.
  - exact (Hsimple "developer" "Remote" 5 eq_refl).
  - exact (Hpost sample_request eq_refl).
Defined.

Lemma post_params_by_key_witness :
  let kw := remove_empty_values (search_params default_request) in
  validate_JobSearchRequest default_body = Some default_request
  ∧ kw !! "search_term" = Some (PStr "developer")
  ∧ kw !! "location" = None
  ∧ kw !! "site_name" = Some (PList ["indeed"])
  ∧ kw !! "results_wanted" = Some (PInt 10)
  ∧ kw !! "is_remote" = None
  ∧ dom kw ⊆ {[ "search_term"; "location"; "site_name"; "results_wanted";
                "is_remote" ]}.
Proof.
  intros kw. split; [reflexivity|].
  exact (post_params_by_key default_body default_request eq_refl).
Defined.
